(** * Reaction: the [var] / [calc] / [DataSource] headers

    A shallow embedding of the three headers of the library

      - include/reaction/resource.h    ([Resource])
      - include/reaction/expression.h  ([Expression] and its one-argument
                                        partial specialisation)
      - include/reaction/dataSource.h  ([DataSource], [var], [calc])

    and the properties of the reactive design that can be decided on them.

    The headers declare three class templates, one member function
    ([DataSource::get], whose body is empty) and two factory functions.
    No class declares a constructor, no statement allocates, and the only
    data are the private members [m_value], [m_fun] and [m_args].

    The factory functions have no embedding.  Their bodies are
<<
    return DataSource<T>(std::forward<T>(t));                      // var
    return DataSource<Func, Args...>(std::forward<Func>(func),
                                     std::forward<Args>(args)...); // calc
>>
    and a class with no declared constructor has the implicitly declared
    ones only, none of which takes the forwarded value or pack: unless the
    value is of a type that converts to the node class by itself, the
    expression has no viable constructor and builds no object.  What the
    classes do have, the implicitly declared default construction, move
    construction, move assignment and destruction, is embedded below. *)

From Stdlib Require Import ZArith.
From stdpp Require Import base list strings.

Module Reaction.

(** ** std::unique_ptr

    An owning pointer is either null or holds its pointee.  The pointee is
    carried by value: what one pointer owns, no other pointer can reach. *)

Definition unique_ptr (T : Type) : Type := option T.

Definition nullptr {T : Type} : unique_ptr T := None.

(** Reading through the pointer.  A null pointer has nothing to give. *)
Definition deref {T : Type} (p : unique_ptr T) : option T := p.

(** Move construction: the new pointer takes the pointee and the source is
    left null.  The pair is (new pointer, source afterwards). *)
Definition unique_ptr_move {T : Type} (p : unique_ptr T)
  : unique_ptr T * unique_ptr T := (p, nullptr).

(** ** What a call expression evaluates to

    [auto get() const { }] has no return statement, so its deduced return
    type is void: the call yields no value.  A callable stored in a node may
    return a value or throw. *)

Inductive completion (V : Type) : Type :=
| ReturnsVoid
| Returns (v : V)
| Throws (e : string).

Arguments ReturnsVoid {V}.
Arguments Returns {V} v.
Arguments Throws {V} e.

(** ** resource.h

<<
    template<typename Type>
    class Resource {
    public:
    private:
        std::unique_ptr<Type> m_value;
    };
>> *)

Record Resource (Type_ : Type) : Type := mkResource {
  m_value : unique_ptr Type_
}.

Arguments mkResource {Type_} m_value.
Arguments m_value {Type_} r.

(** The implicitly declared default constructor: [m_value] is
    default-initialised, and a default-initialised unique_ptr is null. *)
Definition Resource_default (Type_ : Type) : Resource Type_ :=
  {| m_value := nullptr |}.

(** The implicitly declared move constructor, member by member.
    The pair is (new object, moved-from object). *)
Definition Resource_move {Type_ : Type} (r : Resource Type_)
  : Resource Type_ * Resource Type_ :=
  let (p, q) := unique_ptr_move (m_value r) in
  ({| m_value := p |}, {| m_value := q |}).

(** The implicitly declared move assignment [dst = std::move(src)] between
    two distinct objects: [dst] gives up what it held, takes what [src]
    holds, and [src] is left null.  The pair is ([dst], [src]) afterwards.
    The copy constructor and copy assignment are deleted, [m_value] being a
    unique_ptr. *)
Definition Resource_move_assign {Type_ : Type} (dst src : Resource Type_)
  : Resource Type_ * Resource Type_ :=
  let (p, q) := unique_ptr_move (m_value src) in
  ({| m_value := p |}, {| m_value := q |}).

(** [std::tuple<Args...>] *)
Fixpoint tuple (Args : list Type) : Type :=
  match Args with
  | [] => unit
  | A :: As => (A * tuple As)%type
  end.

Section Classes.

(** expression.h names its base [Resource<>], with the template argument
    left out.  [Erased] stands for that argument; nothing below depends on
    what it is. *)
Variable Erased : Type.

(** ** expression.h

<<
    template<typename Fun, typename... Args>
    class Expression : public Resource<>
    {
    public:
    private:
        Fun m_fun;
        std::tuple<Args...> m_args;
    };
    template<typename Type>
    class Expression<Type> : Resource<Type> {};
>> *)

Record Expression_primary (Fun : Type) (Args : list Type) : Type :=
  mkExpression {
    Expression_base : Resource Erased;
    m_fun : Fun;
    m_args : tuple Args
  }.

Arguments mkExpression {Fun Args} _ _ _.
Arguments Expression_base {Fun Args} e.
Arguments m_fun {Fun Args} e.
Arguments m_args {Fun Args} e.

(** Template selection: with an empty pack the partial specialisation
    [Expression<Type>] is the better match, and it is nothing more than a
    [Resource<Type>]. *)
Definition Expression (Fun : Type) (Args : list Type) : Type :=
  match Args with
  | [] => Resource Fun
  | _ :: _ => Expression_primary Fun Args
  end.

(** ** dataSource.h

<<
    template<typename T, typename... Args>
    class DataSource : public Expression<T, Args...>
    {
    public:
        auto get() const {

        }
    };
>>
    DataSource adds no data member to its base. *)

Definition DataSource (T : Type) (Args : list Type) : Type :=
  Expression T Args.

(** The pointee type of the node's [m_value]: [Type] in the one-argument
    specialisation, the argument [Resource<>] leaves out otherwise. *)
Definition value_type (T : Type) (Args : list Type) : Type :=
  match Args with
  | [] => T
  | _ :: _ => Erased
  end.

(** The [Resource] sub-object of a node. *)
Definition resource_of {T : Type} {Args : list Type}
  : DataSource T Args -> Resource (value_type T Args) :=
  match Args with
  | [] => fun d => d
  | _ :: _ => fun d => Expression_base d
  end.

Definition value_ptr {T : Type} {Args : list Type} (d : DataSource T Args)
  : unique_ptr (value_type T Args) :=
  m_value (resource_of d).

(** The callable a node holds: the member [m_fun] of the primary template;
    in the one-argument specialisation the only place that could hold a [T]
    is the pointee of [m_value]. *)
Definition stored_function {T : Type} {Args : list Type}
  : DataSource T Args -> option T :=
  match Args with
  | [] => fun d => deref (m_value d)
  | _ :: _ => fun d => Some (m_fun d)
  end.

(** The argument handles a node holds: [m_args] of the primary template;
    the specialisation has no such member. *)
Definition stored_args {T : Type} {Args : list Type}
  : DataSource T Args -> option (tuple Args) :=
  match Args with
  | [] => fun _ => None
  | _ :: _ => fun d => Some (m_args d)
  end.

(** The implicitly declared default constructor of [DataSource<T, Args...>]:
    the base and each member is default-initialised.  [t0] and [args0] are
    what the default constructors of the callable and of the pack's types
    give; the one-argument specialisation has no such member and uses
    neither. *)
Definition DataSource_default (T : Type) (Args : list Type)
  : T -> tuple Args -> DataSource T Args :=
  match Args with
  | [] => fun _ _ => Resource_default T
  | A :: As => fun t0 args0 =>
      {| Expression_base := Resource_default Erased;
         m_fun := t0;
         m_args := args0 |}
  end.

(** The implicitly declared move constructor, member by member: the base by
    [Resource_move], the callable and the tuple by their own move
    constructors.  These are code of the callable's and the handles' types;
    [move_fun] and [move_args] give, for a value, the pair (value moved to,
    value left behind).  The pair returned is (new node, moved-from node). *)
Definition DataSource_move {T : Type} {Args : list Type}
    (move_fun : T -> T * T)
  : (tuple Args -> tuple Args * tuple Args) ->
    DataSource T Args -> DataSource T Args * DataSource T Args :=
  match Args with
  | [] => fun _ d => Resource_move d
  | _ :: _ => fun move_args d =>
      let (r, r') := Resource_move (Expression_base d) in
      let (f, f') := move_fun (m_fun d) in
      let (a, a') := move_args (m_args d) in
      ({| Expression_base := r; m_fun := f; m_args := a |},
       {| Expression_base := r'; m_fun := f'; m_args := a' |})
  end.

(** [auto get() const { }]: the body is empty.  In state-passing form the
    call takes the node and the ambient program state [w] (whatever a stored
    callable could observe or change, a call counter for instance) and gives
    back the completion, the node and the state. *)
Definition get {T : Type} {Args : list Type} {V W : Type}
    (self : DataSource T Args) (w : W)
  : completion V * DataSource T Args * W :=
  (ReturnsVoid, self, w).

End Classes.

Arguments mkExpression {Erased Fun Args} _ _ _.
Arguments Expression_base {Erased Fun Args} e.
Arguments m_fun {Erased Fun Args} e.
Arguments m_args {Erased Fun Args} e.
Arguments resource_of {Erased T Args} _.
Arguments value_ptr {Erased T Args} d.
Arguments stored_function {Erased T Args} _.
Arguments stored_args {Erased T Args} _.
Arguments DataSource_move {Erased T Args} move_fun move_args _.
Arguments get {Erased T Args V W} self w.

(** ** The declarations, as a table

    What each class body declares, by name.  The implicitly declared
    special member functions (constructors, assignment, destructor) are not
    declarations of the headers and are not listed; they are the operations
    [Resource_default], [Resource_move], [Resource_move_assign] and their
    DataSource counterparts. *)

Inductive class_name : Type :=
| class_Resource
| class_Expression
| class_DataSource.

Definition member_functions (c : class_name) : list string :=
  match c with
  | class_Resource => []
  | class_Expression => []
  | class_DataSource => ["get"]
  end.

Definition data_members (c : class_name) : list string :=
  match c with
  | class_Resource => ["m_value"]
  | class_Expression => ["m_fun"; "m_args"]
  | class_DataSource => []
  end.

Definition callable_names (c : class_name) : list string :=
  match c with
  | class_Resource => member_functions class_Resource
  | class_Expression =>
      member_functions class_Expression ++ member_functions class_Resource
  | class_DataSource =>
      member_functions class_DataSource ++
      member_functions class_Expression ++ member_functions class_Resource
  end.

(** Whether the class, or one of its bases, declares a member function of
    that name. *)
Definition has_member (c : class_name) (name : string) : bool :=
  bool_decide (name ∈ callable_names c).

(** Every data member an object of the class carries, bases included. *)
Definition object_state (c : class_name) : list string :=
  match c with
  | class_Resource => data_members class_Resource
  | class_Expression =>
      data_members class_Resource ++ data_members class_Expression
  | class_DataSource =>
      data_members class_Resource ++ data_members class_Expression ++
      data_members class_DataSource
  end.

(** ** Client programs

    A program that includes the headers works on a list of live nodes and
    on its ambient state.  One of its steps is either a call of [get], the
    one member function the headers declare, on the node at some position,
    or anything else the program does: creating, moving, assigning or
    destroying nodes, running code of its own.  Any such other step is taken
    as an arbitrary change of the nodes and the ambient state. *)

Section Clients.

Variable Erased : Type.
Variable W : Type.

Inductive node : Type :=
| Node (T : Type) (Args : list Type) (d : DataSource Erased T Args).

Inductive call : Type :=
| Call_get (h : nat)
| Call_other (f : list node * W -> list node * W).

Definition node_null (n : node) : bool :=
  match n with
  | Node T Args d =>
      match value_ptr d with
      | None => true
      | Some _ => false
      end
  end.

Definition step (c : call) (st : list node * W) : list node * W :=
  match c with
  | Call_get h =>
      let (nodes, w) := st in
      match nodes !! h with
      | Some (Node T Args d) =>
          let '(_, d', w') := get (V := unit) d w in
          (<[h := Node T Args d']> nodes, w')
      | None => (nodes, w)
      end
  | Call_other f => f st
  end.

Fixpoint run (p : list call) (st : list node * W) : list node * W :=
  match p with
  | [] => st
  | c :: p' => run p' (step c st)
  end.

(** [h.get()] on the node at position [h]. *)
Definition get_at {V : Type} (h : nat) (st : list node * W)
  : option (completion V) :=
  match st.1 !! h with
  | Some (Node T Args d) => Some (get d st.2).1.1
  | None => None
  end.

(** A program with its calls to [get] taken out. *)
Fixpoint without_get (p : list call) : list call :=
  match p with
  | [] => []
  | Call_get _ :: p' => without_get p'
  | c :: p' => c :: without_get p'
  end.

End Clients.

Arguments Node {Erased} T Args d.
Arguments Call_get {Erased W} h.
Arguments Call_other {Erased W} f.
Arguments node_null {Erased} n.
Arguments step {Erased W} c st.
Arguments run {Erased W} p st.
Arguments get_at {Erased W V} h st.
Arguments without_get {Erased W} p.

(** ** Who holds what

    [m_value] is private to [Resource], and [Resource] declares nothing, so
    the only code that touches the pointer of any node is the implicitly
    declared special member functions of [Resource]: default construction,
    move construction, move assignment and destruction (copying is
    deleted).  Whatever a program does with nodes, to the [Resource]
    sub-objects of one pointee type it is a sequence of these, on cells
    named by position. *)

Inductive special : Type :=
| Default_construct
| Move_construct (src : nat)
| Move_assign (dst src : nat)
| Destroy (h : nat).

Section Ownership.

Variable Type_ : Type.

Definition apply_special (op : special) (cells : list (Resource Type_))
  : list (Resource Type_) :=
  match op with
  | Default_construct => cells ++ [Resource_default Type_]
  | Move_construct src =>
      match cells !! src with
      | Some r =>
          let (new, old) := Resource_move r in
          <[src := old]> cells ++ [new]
      | None => cells
      end
  | Move_assign dst src =>
      match cells !! dst, cells !! src with
      | Some rd, Some rs =>
          if decide (dst = src) then cells
          else
            let (rd', rs') := Resource_move_assign rd rs in
            <[dst := rd']> (<[src := rs']> cells)
      | _, _ => cells
      end
  | Destroy h => delete h cells
  end.

Fixpoint run_special (ops : list special) (cells : list (Resource Type_))
  : list (Resource Type_) :=
  match ops with
  | [] => cells
  | op :: ops' => run_special ops' (apply_special op cells)
  end.

(** The pointees held, one entry per cell that holds one. *)
Definition pointees (cells : list (Resource Type_)) : list Type_ :=
  mbind (fun r => option_list (m_value r)) cells.

End Ownership.

Arguments apply_special {Type_} op cells.
Arguments run_special {Type_} ops cells.
Arguments pointees {Type_} cells.

(** ** The scenarios of the specification

    Stored callables are written in state-passing form over a table of
    call counts, the counter a test would place in each function: a callable
    that runs adds one to its own entry. *)

Definition calls : Type := nat -> nat.

Definition no_calls : calls := fun _ => 0.

Definition count_call (h : nat) (w : calls) : calls :=
  fun k => if decide (k = h) then S (w k) else w k.

Definition times (r : completion Z) (k : Z) : completion Z :=
  match r with
  | Returns v => Returns (v * k)%Z
  | ReturnsVoid => ReturnsVoid
  | Throws e => Throws e
  end.

Definition plus (r s : completion Z) : completion Z :=
  match r, s with
  | Returns v, Returns u => Returns (v + u)%Z
  | Throws e, _ => Throws e
  | _, Throws e => Throws e
  | _, _ => ReturnsVoid
  end.

Definition counted : Type := calls -> completion Z * calls.

(** A source node as its constructor leaves it. *)

Definition diamond_a : DataSource Z Z [] := Resource_default Z.

(** The diamond:
    [a=var(1); b=calc(|| a.get()*2); c=calc(|| a.get()*3);
     d=calc(|| b.get()+c.get())], then [a.set(2)].
    No expression of the headers builds these nodes or writes to them, so
    they are given in the state the scenario wants them in after the write:
    2 behind the pointer of [a], and behind the pointer of [b], [c] and [d]
    the function each was made from.  The classes are the ones the
    scenario's expressions name: [DataSource<int>] for [a], and for the
    others [DataSource<Func>], the pack being empty.  The nodes sit at
    positions 0 to 3. *)

Definition diamond_a_set : DataSource Z Z [] := {| m_value := Some 2%Z |}.

Definition diamond_b_fun : counted :=
  fun w =>
    let '(r, _, w') := get diamond_a_set w in (times r 2, count_call 1 w').

Definition diamond_b : DataSource Z counted [] :=
  {| m_value := Some diamond_b_fun |}.

Definition diamond_c_fun : counted :=
  fun w =>
    let '(r, _, w') := get diamond_a_set w in (times r 3, count_call 2 w').

Definition diamond_c : DataSource Z counted [] :=
  {| m_value := Some diamond_c_fun |}.

Definition diamond_d_fun : counted :=
  fun w =>
    let '(rb, _, w1) := get diamond_b w in
    let '(rc, _, w2) := get diamond_c w1 in
    (plus rb rc, count_call 3 w2).

Definition diamond_d : DataSource Z counted [] :=
  {| m_value := Some diamond_d_fun |}.

Definition diamond : list (node Z) * calls :=
  ([Node Z [] diamond_a_set; Node counted [] diamond_b;
    Node counted [] diamond_c; Node counted [] diamond_d], no_calls).

(** A computed node over one handle holding a function that yields 5, with
    nothing behind its value pointer, and the same node with 5 behind it. *)

Definition five_fun : counted :=
  fun w => (Returns 5%Z, count_call 0 w).

Definition five_node : DataSource Z counted [DataSource Z Z [] : Type] :=
  mkExpression (Args := [DataSource Z Z [] : Type])
    (Resource_default Z) five_fun (diamond_a, tt).

Definition five_cached : DataSource Z counted [DataSource Z Z [] : Type] :=
  mkExpression (Args := [DataSource Z Z [] : Type])
    {| m_value := Some 5%Z |} five_fun (diamond_a, tt).

(** A source node with 1 behind its value pointer. *)

Definition one_stored : DataSource Z Z [] := {| m_value := Some 1%Z |}.

(* ------------------------------------------------------------------ *)
(** * Lemmas *)

Section Helpers.

Context {Erased W : Type}.

Implicit Types (st : list (node Erased) * W) (p : list (call Erased W)).

Lemma get_eq {T Args V} (d : DataSource Erased T Args) (w : W) :
  get (V := V) d w = (ReturnsVoid, d, w).
Proof. reflexivity. Qed.

Lemma default_null T Args (t0 : T) (args0 : tuple Args) :
  value_ptr (DataSource_default Erased T Args t0 args0) = None.
Proof. destruct Args; reflexivity. Qed.

Lemma move_source_null {T Args} mf ma (d : DataSource Erased T Args) :
  value_ptr (DataSource_move mf ma d).2 = None.
Proof.
  destruct Args; [reflexivity|]. simpl.
  by destruct (mf (m_fun d)), (ma (m_args d)).
Qed.

Lemma move_target_ptr {T Args} mf ma (d : DataSource Erased T Args) :
  value_ptr (DataSource_move mf ma d).1 = value_ptr d.
Proof.
  destruct Args; [reflexivity|]. simpl.
  by destruct (mf (m_fun d)), (ma (m_args d)).
Qed.

Lemma step_get st h : step (Call_get h) st = st.
Proof.
  destruct st as [nodes w]; simpl.
  destruct (nodes !! h) as [[T Args d]|] eqn:E; [|reflexivity].
  by rewrite list_insert_id.
Qed.

Lemma run_gets (hs : list nat) st : run (map Call_get hs) st = st.
Proof.
  induction hs as [|h hs IH]; [reflexivity|].
  change (run (map Call_get hs) (step (Call_get h) st) = st).
  by rewrite step_get.
Qed.

Lemma get_at_void {V} h st :
  get_at (V := V) h st = None \/ get_at (V := V) h st = Some ReturnsVoid.
Proof.
  unfold get_at. destruct (st.1 !! h) as [[T Args d]|]; [right|left]; done.
Qed.

End Helpers.

Section Ownership_lemmas.

Context {T : Type}.

Implicit Types (cells : list (Resource T)) (r : Resource T).

Lemma pointees_app cells1 cells2 :
  pointees (cells1 ++ cells2) = pointees cells1 ++ pointees cells2.
Proof. apply bind_app. Qed.

Lemma pointees_cons r cells :
  pointees (r :: cells) = option_list (m_value r) ++ pointees cells.
Proof. reflexivity. Qed.

(** Taking the pointee out of one cell. *)
Lemma pointees_take_out cells i r :
  cells !! i = Some r ->
  pointees cells ≡ₚ
    option_list (m_value r) ++ pointees (<[i := Resource_default T]> cells).
Proof.
  intros E.
  rewrite <- (take_drop_middle cells i r E) at 1.
  rewrite insert_take_drop by (eapply lookup_lt_Some; exact E).
  rewrite !pointees_app, !pointees_cons. simpl.
  apply Permutation_app_swap_app.
Qed.

Lemma pointees_insert cells i r r' :
  cells !! i = Some r ->
  pointees (<[i := r']> cells) ≡ₚ
    option_list (m_value r') ++ pointees (<[i := Resource_default T]> cells).
Proof.
  intros E.
  assert (<[i := r']> cells !! i = Some r') as E'.
  { apply list_lookup_insert_eq. eapply lookup_lt_Some; exact E. }
  rewrite (pointees_take_out _ _ _ E').
  by rewrite list_insert_insert_eq.
Qed.

Lemma apply_special_pointees op cells :
  pointees (apply_special op cells) ⊆+ pointees cells.
Proof.
  destruct op as [|src|dst src|h]; simpl.
  - rewrite pointees_app. simpl. by rewrite app_nil_r.
  - destruct (cells !! src) as [r|] eqn:E; [|done].
    apply Permutation_submseteq.
    rewrite pointees_app, pointees_cons. simpl. rewrite app_nil_r.
    rewrite (pointees_take_out _ _ _ E).
    apply Permutation_app_comm.
  - destruct (cells !! dst) as [rd|] eqn:Ed; [|done].
    destruct (cells !! src) as [rs|] eqn:Es; [|done].
    destruct (decide (dst = src)) as [|Hne]; [done|]. simpl.
    assert (<[src := Resource_default T]> cells !! dst = Some rd) as Ed'.
    { by rewrite list_lookup_insert_ne. }
    change {| m_value := nullptr |} with (Resource_default T).
    rewrite (pointees_insert _ _ _ _ Ed'). simpl.
    rewrite (pointees_take_out cells _ _ Es).
    apply submseteq_skips_l.
    rewrite (pointees_take_out _ _ _ Ed').
    apply submseteq_inserts_l. done.
  - apply sublist_submseteq. unfold pointees.
    apply bind_sublist, sublist_delete.
Qed.

Lemma run_special_pointees ops cells :
  pointees (run_special ops cells) ⊆+ pointees cells.
Proof.
  revert cells; induction ops as [|op ops IH]; intros cells; simpl; [done|].
  etrans; [apply IH | apply apply_special_pointees].
Qed.

Lemma pointees_nil_null cells :
  pointees cells = [] -> Forall (fun r => m_value r = nullptr) cells.
Proof.
  induction cells as [|[[v|]] cells IH]; intros H; [constructor|done|].
  constructor; [done|]. by apply IH.
Qed.

(** Distinct pointees stay distinct: what no two cells held together, no
    two cells come to hold. *)
Lemma pointees_never_shared ops cells :
  NoDup (pointees cells) -> NoDup (pointees (run_special ops cells)).
Proof.
  intros H.
  destruct (submseteq_Permutation _ _ (run_special_pointees ops cells))
    as [k Hk].
  rewrite Hk in H. by apply NoDup_app in H as [? _].
Qed.

End Ownership_lemmas.

(** The scenarios evaluate. *)

Example diamond_built :
  length diamond.1 = 4 /\
  get_at (V := Z) 3 diamond = Some ReturnsVoid /\
  get_at (V := Z) 4 diamond = None /\
  (diamond_b_fun no_calls).1 = ReturnsVoid /\
  (diamond_d_fun no_calls).1 = ReturnsVoid /\
  (diamond_d_fun no_calls).2 3 = 1.
Proof. repeat split. Qed.

Example move_leaves_source_null :
  let move_handle (a : tuple [DataSource Z Z [] : Type]) :=
    let (n, o) := Resource_move a.1 in ((n, tt), (o, tt)) in
  let '(new, old) :=
    DataSource_move (fun f : counted => (f, f)) move_handle five_cached in
  value_ptr new = Some 5%Z /\ value_ptr old = None.
Proof. split; reflexivity. Qed.

Example special_members_hand_over :
  let cells := [ {| m_value := Some 7%Z |}; Resource_default Z;
                 {| m_value := Some 9%Z |} ] in
  pointees cells = [7%Z; 9%Z] /\
  pointees (run_special [Move_construct 0] cells) = [9%Z; 7%Z] /\
  map m_value (run_special [Move_assign 1 0] cells)
    = [None; Some 7%Z; Some 9%Z] /\
  map m_value (run_special [Move_assign 2 0] cells)
    = [None; None; Some 7%Z] /\
  map m_value (run_special [Move_assign 0 0] cells)
    = [Some 7%Z; None; Some 9%Z] /\
  pointees (run_special [Destroy 0; Default_construct] cells) = [9%Z].
Proof. repeat split. Qed.

(* ------------------------------------------------------------------ *)
(** * The claims *)

(** C1 as stated fails.  DataSource declares no [set].  Take the diamond
    with 2 already behind the pointer of [a] and each function behind the
    pointer of its node: whatever calls of [get] are made, [d.get()] never
    yields 10 and the call count of [d]'s function never goes up by one.
    Run by hand, [d]'s function yields no 10 either, [b.get()] and
    [c.get()] being void. *)
Lemma C1_diamond_counterexample :
  has_member class_DataSource "set" = false /\
  (diamond_d_fun no_calls).1 <> Returns 10%Z /\
  ~ (exists hs : list nat,
        get_at 3 (run (map Call_get hs) diamond) = Some (Returns 10%Z) \/
        (run (map Call_get hs) diamond).2 3 = S (diamond.2 3)).
Proof.
  split; [reflexivity|]. split; [discriminate|].
  intros [hs H]. rewrite run_gets in H. destruct H as [H|H]; discriminate.
Qed.

(** C1, amended.  The headers contain no propagation pass.  DataSource
    declares no [set]: the one member function it or its bases declare is
    [get], and [get] recomputes nothing.  Any sequence of [get] calls leaves
    every node and the ambient state, every call counter with it, exactly
    as they were, so it invokes no stored function; and [get] on any node
    returns no value. *)
Theorem C1_no_propagation :
  callable_names class_DataSource = ["get"] /\
  forall (Erased W V : Type) (hs : list nat) (st : list (node Erased) * W)
         (h : nat),
    run (map Call_get hs) st = st /\
    (get_at (V := V) h st = None \/
     get_at (V := V) h st = Some ReturnsVoid).
Proof.
  split; [reflexivity|]. intros.
  split; [apply run_gets | apply get_at_void].
Qed.



(** C3 as stated fails.  A source node with 1 behind its pointer: [get]
    does not return 1.  Nor does [get] on a source node as its constructor
    leaves it. *)
Lemma C3_get_counterexample :
  deref (value_ptr one_stored) = Some 1%Z /\
  (get (V := Z) one_stored tt).1.1 <> Returns 1%Z /\
  (get (V := Z) diamond_a tt).1.1 <> Returns 1%Z.
Proof. repeat split; discriminate. Qed.

(** C3, amended.  On every source node [get] returns nothing (its return
    type is void), runs nothing, and leaves the node and the ambient state
    as they were; a program that calls [get] on one of its nodes is in the
    same state afterwards. *)
Theorem C3_get_returns_nothing :
  forall (Erased T V W : Type) (d : DataSource Erased T []) (w : W),
    get (V := V) d w = (ReturnsVoid, d, w) /\
    forall (nodes : list (node Erased)) (h : nat),
      step (Call_get h) (nodes, w) = (nodes, w).
Proof.
  intros. split; [apply get_eq|].
  intros. apply step_get.
Qed.

(** C5 as stated fails.  A computed node with the result 5 cached behind
    its pointer: [get] does not return 5.  Nor does [get] on the node that
    holds a function yielding 5 and nothing behind its pointer. *)
Lemma C5_get_counterexample :
  deref (value_ptr five_cached) = Some 5%Z /\
  (get (V := Z) five_cached no_calls).1.1 <> Returns 5%Z /\
  (five_fun no_calls).1 = Returns 5%Z /\
  (get (V := Z) five_node no_calls).1.1 <> Returns 5%Z.
Proof. repeat split; discriminate. Qed.

(** C5, amended.  On every node (the headers have no clean/dirty
    distinction) [get] returns nothing and does not invoke the stored
    function: two consecutive calls complete alike and leave the node and
    the ambient state, any call counter included, unchanged. *)
Theorem C5_get_idempotent :
  forall (Erased T : Type) (Args : list Type) (V W : Type)
         (d : DataSource Erased T Args) (w : W),
    let '(r1, d1, w1) := get (V := V) d w in
    let '(r2, d2, w2) := get (V := V) d1 w1 in
    r1 = ReturnsVoid /\ r2 = r1 /\ d2 = d /\ w2 = w.
Proof. intros. simpl. repeat split. Qed.

(** C8 as stated fails.  On the value cell there is no [write] that stores
    its argument together with a version that rises on every write: writing
    the same value twice gives the same cell.  Nor does [Resource] declare a
    member [write] or [read]. *)
Lemma C8_version_counterexample :
  has_member class_Resource "write" = false /\
  has_member class_Resource "read" = false /\
  ~ (exists (version : Resource Z -> nat)
            (write : Z -> Resource Z -> Resource Z),
        (forall v r, deref (m_value (write v r)) = Some v) /\
        (forall v r, version r < version (write v r))).
Proof.
  split; [reflexivity|]. split; [reflexivity|].
  intros (version & write & Hw & Hv).
  set (r1 := write 0%Z (Resource_default Z)).
  pose proof (Hv 0%Z r1) as Hlt.
  assert (write 0%Z r1 = r1) as E.
  { pose proof (Hw 0%Z r1) as H2. pose proof (Hw 0%Z (Resource_default Z)) as H1.
    fold r1 in H1. destruct (write 0%Z r1) as [p2], r1 as [p1].
    unfold deref in *; simpl in *. congruence. }
  rewrite E in Hlt. lia.
Qed.

(** C8, amended.  A node's value cell is its value pointer and nothing
    else: [Resource] has the one data member [m_value], no version counter,
    and declares no member function, neither [read] nor [write].  Anything
    computed from a cell depends on the pointer alone. *)
Theorem C8_cell_is_pointer :
  object_state class_Resource = ["m_value"] /\
  callable_names class_Resource = [] /\
  forall (T : Type) (r : Resource T),
    r = {| m_value := m_value r |} /\
    forall (version : Resource T -> nat),
      version r = version {| m_value := m_value r |}.
Proof.
  repeat split; by destruct r.
Qed.



(** C10.  A node's value storage is a uniquely-owned pointer that no
    constructor initialises.  A freshly constructed Resource, and a freshly
    constructed Expression or DataSource of any pack, has a null value
    pointer, so a read of the stored value meets the empty case.  The
    pointer is handed over, never copied: move construction gives the new
    node what the source held and leaves the source null, move assignment
    does so for the assigned node, and whatever sequence of constructions,
    moves, move assignments and destructions a program performs, the
    pointees held afterwards are among those held before, each as often as
    before at most.  So two nodes never come to hold the same storage, and
    in a program that starts with no node every pointer is null
    throughout. *)
Theorem C10_value_pointer_empty :
  (forall T : Type,
      m_value (Resource_default T) = nullptr /\
      deref (m_value (Resource_default T)) = None) /\
  (forall (Erased T : Type) (Args : list Type) (t0 : T)
          (args0 : tuple Args),
      value_ptr (DataSource_default Erased T Args t0 args0) = nullptr /\
      deref (value_ptr (DataSource_default Erased T Args t0 args0)) = None) /\
  (forall (Erased T : Type) (Args : list Type)
          (move_fun : T -> T * T)
          (move_args : tuple Args -> tuple Args * tuple Args)
          (d : DataSource Erased T Args),
      value_ptr (DataSource_move move_fun move_args d).1 = value_ptr d /\
      value_ptr (DataSource_move move_fun move_args d).2 = nullptr) /\
  (forall (T : Type) (dst src : Resource T),
      m_value (Resource_move_assign dst src).1 = m_value src /\
      m_value (Resource_move_assign dst src).2 = nullptr) /\
  (forall (T : Type) (ops : list special) (cells : list (Resource T)),
      pointees (run_special ops cells) ⊆+ pointees cells) /\
  (forall (T : Type) (ops : list special),
      Forall (fun r : Resource T => m_value r = nullptr)
        (run_special ops [])).
Proof.
  split; [by intros|].
  split.
  { intros. unfold deref. by rewrite default_null. }
  split.
  { intros. split; [apply move_target_ptr | apply move_source_null]. }
  split; [by intros|].
  split.
  { intros. apply run_special_pointees. }
  intros. apply pointees_nil_null.
  apply submseteq_nil_r, (run_special_pointees ops []).
Qed.

(* ------------------------------------------------------------------ *)
(** * Further properties of the headers *)

(** X1.  A call to [get] is dead code: taking every [get] out of a program
    changes nothing, the program ends with the same nodes and the same
    ambient state from every starting state. *)
Theorem X1_get_is_dead_code :
  forall (Erased W : Type) (p : list (call Erased W))
         (st : list (node Erased) * W),
    run (without_get p) st = run p st.
Proof.
  intros Erased W p. induction p as [|c p IH]; intros st; [reflexivity|].
  destruct c as [h|f].
  - change (run (without_get p) st = run p (step (Call_get h) st)).
    rewrite step_get. apply IH.
  - change (run (without_get p) (f st) = run p (f st)). apply IH.
Qed.

End Reaction.
